(** * aicommits (modified): the interactive commit command

    A shallow embedding of [src/commands/aicommits.ts].  The command is one
    asynchronous function that talks to the outside world (git, the prompt
    library, the text-generation service) and whose control flow uses
    [throw], early [return], [try]/[finally] and a final [.catch].  The
    embedding keeps that shape: a small monad of JavaScript completions over
    a log of the external calls, and one definition per source construct. *)

From Stdlib Require Import String Ascii List Bool ZArith DecimalString Lia.
Import ListNotations.
Open Scope list_scope.
Open Scope string_scope.


(** ** Values exchanged with the collaborators *)

(** An [Error] object: its [message], and whether it is a [KnownError]
    (the class [handleCliError] tests for). *)
Record Error : Type := mkError { known : bool; message : string }.

Definition KnownError (msg : string) : Error := mkError true msg.

(** What an awaited promise settles to. *)
Inductive Settled (A : Type) : Type :=
| Resolved (a : A)
| Rejected (e : Error).
Arguments Resolved {A} a.
Arguments Rejected {A} e.

(** What a clack prompt gives back: the cancel symbol that [isCancel]
    recognises, or the entered / selected value, which the source takes
    as a string ([as string], [as Exclude<keyof typeof commitPrefixes,
    symbol>]); an empty note is the empty string. *)
Inductive Reply : Type :=
| Cancel
| Value (v : string).

Definition isCancel (r : Reply) : bool :=
  match r with Cancel => true | Value _ => false end.

(** [r === v] for a prompt's answer [r] and a string [v]. *)
Definition strict_eq (r : Reply) (v : string) : bool :=
  match r with Cancel => false | Value x => x =? v end.

(** The [stdio] option of [execa]: left out, or ['inherit']. *)
Inductive Stdio : Type := StdioDefault | StdioInherit.

(** The two spinners of the command, named after their variables. *)
Inductive Spinner : Type := spinner_detectingFiles | spinner_s.

(** The object [getStagedDiff] resolves to when something is staged. *)
Record Staged : Type := mkStaged { files : list string; diff : string }.

(** One entry of the [options] array of [select]. *)
Record SelectOption : Type :=
  mkOption { label : string; value : string; hint : option string }.

Module ConfigArgs.
(** The object literal handed to [getConfig]. *)
Record t : Type := mk
  { OPENAI_KEY : option string;
    proxy : option string;
    generate : option string;
    type : option string }.
End ConfigArgs.

Module Config.
(** The fields of the resolved configuration that the command reads. *)
Record t : Type := mk
  { OPENAI_KEY : string;
    model : string;
    locale : string;
    generate : Z;
    max_length : Z;
    type : string;
    timeout : Z;
    proxy : option string }.
End Config.

Module GenArgs.
(** The ten positional arguments of [generateCommitMessage], in order;
    the fifth is the auxiliary instruction string. *)
Record t : Type := mk
  { apiKey : string;
    model : string;
    locale : string;
    diff : string;
    instruction : string;
    completions : Z;
    maxLength : Z;
    type : string;
    timeout : Z;
    proxy : option string }.
End GenArgs.

(** ** The log of external calls

    Every call that leaves the function is recorded with its arguments and,
    where it has one, the answer that came back. *)
Inductive Event : Type :=
| Intro (text : string)
| Outro (text : string)
| AssertGitRepo (r : Settled unit)
| Execa (file : string) (args : list string) (stdio : Stdio) (r : Settled unit)
| SpinnerStart (sp : Spinner) (text : string)
| SpinnerStop (sp : Spinner) (text : string)
| GetStagedDiff (excludeFiles : list string) (r : Settled (option Staged))
| GetConfig (args : ConfigArgs.t) (r : Settled Config.t)
| Text (msg placeholder : string) (r : Reply)
| Select (msg : string) (options : list SelectOption)
         (initialValue : option string) (r : Reply)
| GenerateCommitMessage (args : GenArgs.t) (r : Settled (list string))
| HandleCliError (e : Error)
| ProcessExit (code : Z).

(** ** The collaborators

    Everything the file imports or reads from the process: the colour
    functions of kolorist, the helpers of [../utils], [execa], the two
    prompts and [process.env].  A value of [Env] fixes how the outside
    world answers during one invocation. *)
Record Env : Type := mkEnv
  { black : string -> string;
    dim : string -> string;
    green : string -> string;
    red : string -> string;
    bgCyan : string -> string;
    assertGitRepo : Settled unit;
    getStagedDiff : list string -> Settled (option Staged);
    getDetectedMessage : list string -> string;
    getConfig : ConfigArgs.t -> Settled Config.t;
    generateCommitMessage : GenArgs.t -> Settled (list string);
    execa : string -> list string -> Stdio -> Settled unit;
    text : string -> string -> Reply;
    select : string -> list SelectOption -> option string -> Reply;
    process_env : string -> option string }.

(** ** JavaScript expressions used by the command *)

Definition nl : string := String "010"%char EmptyString.

(** [a || b] on values that are a string or [undefined]: the first one that
    is truthy (a non-empty string), else the second. *)
Definition js_or (a b : option string) : option string :=
  match a with
  | Some x => if x =? "" then b else a
  | None => b
  end.

(** A JavaScript number, as the command sees one.  The only thing done with
    [generate] is [generate?.toString()] (line 63), so a number is given by
    the text that call returns: ["3"], and also ["1.5"], ["1e+21"] or
    ["NaN"]. *)
Record Number : Type := mkNumber { Number_toString : string }.

(** An integer in decimal, for the texts of the scenarios. *)
Definition decimal (n : Z) : string := NilZero.string_of_int (Z.to_int n).

(** A value interpolated in a template literal. *)
Definition interpolate (v : option string) : string :=
  match v with Some x => x | None => "undefined" end.

(** The table [commitPrefixes] (lines 17-29), key by key. *)
Definition commitPrefixes : list (string * string) :=
  [ ("", "");
    ("entrust", "");
    ("fix", "🐛 fix");
    ("chore", "🔨 chore");
    ("docs", "📝 docs");
    ("style", "🎨 style");
    ("feat", "🚀 feat");
    ("perf", "🔥 perf");
    ("test", "🚨 test");
    ("security", "🔒 security");
    ("refactor", "🔧 refactor") ].

(** Property access [obj[key]] on an object literal. *)
Fixpoint get (obj : list (string * string)) (key : string) : option string :=
  match obj with
  | [] => None
  | (k, v) :: rest => if k =? key then Some v else get rest key
  end.

(** The statement of lines 124 and 155,
    [(prefix === 'entrust' || prefix === '') || (message = `${commitPrefixes[prefix]}: ${message}`)],
    as the value [message] has afterwards. *)
Definition decorate (prefix message : string) : string :=
  if (prefix =? "entrust") || (prefix =? "") then message
  else interpolate (get commitPrefixes prefix) ++ ": " ++ message.

(** Line 99: [bgInfo ? `Background information provided from user: ${bgInfo}` : '']. *)
Definition bgInfoText (bgInfo : string) : string :=
  if bgInfo =? "" then ""
  else "Background information provided from user: " ++ bgInfo.

Definition entrust_directive : string :=
  "The commit message must begin with an emoji and prefix that best describes the change. (e.g. 🐛 fix: bug in something.js file where processing does not stop)".

(** Line 105: the fifth argument of [generateCommitMessage]. *)
Definition instruction (bgInfo prefix : string) : string :=
  if prefix =? "entrust"
  then bgInfoText bgInfo ++ nl ++ entrust_directive
  else bgInfoText bgInfo.

(** The [options] of the prefix prompt (lines 77-89). *)
Definition prefix_options : list SelectOption :=
  [ mkOption "None" "" None;
    mkOption "Entrust" "entrust" (Some "Entrust the AI to generate a commit message");
    mkOption "🐛 fix" "fix" (Some "Fixes a bug");
    mkOption "🔨 chore" "chore" (Some "Changes to the build process or auxiliary tools and libraries such as documentation generation");
    mkOption "📝 docs" "docs" (Some "Documentation only changes");
    mkOption "🎨 style" "style" (Some "Changes that do not affect the meaning of the code (white-space, formatting, missing semi-colons, etc)");
    mkOption "🚀 feat" "feat" (Some "Adds a new feature");
    mkOption "🔥 perf" "perf" (Some "Improves performance");
    mkOption "🚨 test" "test" (Some "Adds or modifies tests");
    mkOption "🔒 security" "security" (Some "Fixes a security issue");
    mkOption "🔧 refactor" "refactor" (Some "A code change that neither fixes a bug nor adds a feature") ].

(** The [options] of the confirmation prompt (lines 127-131). *)
Definition confirm_options : list SelectOption :=
  [ mkOption "Yes" "yes" None;
    mkOption "No, regenerate" "regenerate" None;
    mkOption "No, cancel commit" "cancel" None ].

(** [messages.map(value => ({ label: value, value }))] (line 145). *)
Definition pick_options (messages : list string) : list SelectOption :=
  map (fun value => mkOption value value None) messages.

(** ** The texts of the command *)

(** The two errors the command raises itself (lines 53 and 117). *)
Definition NoStagedChanges : Error :=
  KnownError "No staged changes found. Stage your changes manually, or automatically stage all changes with the `--all` flag.".

Definition EmptyGeneration : Error :=
  KnownError "No commit messages were generated. Try again.".

(** The texts of the two spinners (lines 48, 52, 96 and 113). *)
Definition detecting_text : string := "Detecting staged files".
Definition analyzing_text : string := "The AI is analyzing your changes".
Definition analyzed_text : string := "Changes analyzed".

(** The farewell after a cancellation (lines 72, 92, 136 and 149). *)
Definition cancelled_text : string := "Commit cancelled".

(** The question and the placeholder of the note prompt (lines 68-69). *)
Definition text_message : string :=
  "Please enter any background information you would like to pass on to the AI.".

Definition text_placeholder : string := "fixed typo".

(** The question of the prefix prompt (line 76). *)
Definition prefix_message : string :=
  "Please select a prefix for the commit message.".

(** The question of the confirmation prompt (line 126). *)
Definition confirm_message (message : string) : string :=
  "Use this commit message?" ++ nl ++ nl ++ "   " ++ message ++ nl.

(** ** Completions

    A statement of the asynchronous body finishes normally with a value,
    by [return], or by [throw]; the log is threaded through. *)
Inductive Completion (A : Type) : Type :=
| Normal (a : A)
| Return
| Throw (e : Error).
Arguments Normal {A} a.
Arguments Return {A}.
Arguments Throw {A} e.

Definition M (A : Type) : Type := list Event -> Completion A * list Event.

Definition ret {A} (a : A) : M A := fun log => (Normal a, log).

Definition bind {A B} (m : M A) (k : A -> M B) : M B :=
  fun log =>
    match m log with
    | (Normal a, log') => k a log'
    | (Return, log') => (Return, log')
    | (Throw e, log') => (Throw e, log')
    end.

Declare Scope js_scope.
Delimit Scope js_scope with js.
Notation "x <- m ;; k" := (bind m (fun x => k))
  (at level 61, m at next level, right associativity) : js_scope.
Notation "m ;; k" := (bind m (fun _ => k))
  (at level 61, right associativity) : js_scope.

Definition throw {A} (e : Error) : M A := fun log => (Throw e, log).

Definition return_ {A} : M A := fun log => (Return, log).

Definition emit (ev : Event) : M unit := fun log => (Normal tt, (log ++ [ev])%list).

(** [await p] for a promise that has settled to [r]. *)
Definition await {A} (r : Settled A) : M A :=
  fun log =>
    match r with
    | Resolved a => (Normal a, log)
    | Rejected e => (Throw e, log)
    end.

(** [try { body } finally { cleanup }]: the cleanup runs after the body
    however it completed; an abrupt completion of the cleanup wins. *)
Definition try_finally {A} (body : M A) (cleanup : M unit) : M A :=
  fun log =>
    let '(c, log') := body log in
    match cleanup log' with
    | (Normal _, log'') => (c, log'')
    | (Return, log'') => (Return, log'')
    | (Throw e, log'') => (Throw e, log'')
    end.

Definition when (b : bool) (m : M unit) : M unit := if b then m else ret tt.

(** ** The command *)

Section Command.

Variable E : Env.

Local Open Scope js_scope.

(** *** External calls: perform, log, and hand back the answer *)

Definition intro (text : string) : M unit := emit (Intro text).

Definition outro (text : string) : M unit := emit (Outro text).

Definition spinner_start (sp : Spinner) (text : string) : M unit :=
  emit (SpinnerStart sp text).

Definition spinner_stop (sp : Spinner) (text : string) : M unit :=
  emit (SpinnerStop sp text).

Definition await_assertGitRepo : M unit :=
  let r := assertGitRepo E in
  emit (AssertGitRepo r) ;; await r.

Definition await_execa (file : string) (args : list string) (stdio : Stdio) : M unit :=
  let r := execa E file args stdio in
  emit (Execa file args stdio r) ;; await r.

Definition await_getStagedDiff (excludeFiles : list string) : M (option Staged) :=
  let r := getStagedDiff E excludeFiles in
  emit (GetStagedDiff excludeFiles r) ;; await r.

Definition await_getConfig (args : ConfigArgs.t) : M Config.t :=
  let r := getConfig E args in
  emit (GetConfig args r) ;; await r.

Definition await_generateCommitMessage (args : GenArgs.t) : M (list string) :=
  let r := generateCommitMessage E args in
  emit (GenerateCommitMessage args r) ;; await r.

Definition await_text (msg placeholder : string) : M Reply :=
  let r := text E msg placeholder in
  emit (Text msg placeholder r) ;; ret r.

Definition await_select (msg : string) (options : list SelectOption)
           (initialValue : option string) : M Reply :=
  let r := select E msg options initialValue in
  emit (Select msg options initialValue r) ;; ret r.

Definition handleCliError (e : Error) : M unit := emit (HandleCliError e).

Definition process_exit (code : Z) : M unit := emit (ProcessExit code).

(** *** The parameters of the exported function (lines 31-37) *)

Variable generate : option Number.
Variable excludeFiles : list string.
Variable stageAll : bool.
Variable commitType : option string.
Variable rawArgv : list string.

(** The question of the pick among several candidates (line 144). *)
Definition pick_message : string :=
  "Pick a commit message to use: " ++ dim E "(Ctrl+c to exit)".

(** What the first spinner stops with when something is staged
    (lines 56-57). *)
Definition detected_text (staged : Staged) : string :=
  getDetectedMessage E (files staged) ++ ":" ++ nl
    ++ String.concat nl (map (fun file => "     " ++ file) (files staged)).

(** The closing lines (lines 160 and 162). *)
Definition success_line : string := green E "✔" ++ " Successfully committed!".

Definition failure_line (error : Error) : string :=
  red E "✖" ++ " " ++ message error.

(** The object given to [getConfig] (lines 60-65): the key and the proxy
    from the environment variables, [generate?.toString()] and
    [commitType?.toString()]. *)
Definition config_args : ConfigArgs.t :=
  ConfigArgs.mk
    (js_or (process_env E "OPENAI_KEY") (process_env E "OPENAI_API_KEY"))
    (js_or (js_or (js_or (process_env E "https_proxy") (process_env E "HTTPS_PROXY"))
                  (process_env E "http_proxy"))
           (process_env E "HTTP_PROXY"))
    (option_map Number_toString generate)
    commitType.

(** The arguments of [generateCommitMessage] (lines 100-111). *)
Definition generate_args (config : Config.t) (staged : Staged)
    (bgInfo prefix : string) : GenArgs.t :=
  GenArgs.mk
    (Config.OPENAI_KEY config)
    (Config.model config)
    (Config.locale config)
    (diff staged)
    (instruction bgInfo prefix)
    (Config.generate config)
    (Config.max_length config)
    (Config.type config)
    (Config.timeout config)
    (Config.proxy config).

(** The inner asynchronous function (lines 37-160). *)
Definition body : M unit :=
  intro (bgCyan E (black E " aicommits ")) ;;
  await_assertGitRepo ;;
  when stageAll (await_execa "git" ["add"; "--update"] StdioDefault) ;;
  spinner_start spinner_detectingFiles detecting_text ;;
  staged <- await_getStagedDiff excludeFiles ;;
  match staged with
  | None =>
      spinner_stop spinner_detectingFiles detecting_text ;;
      throw NoStagedChanges
  | Some staged =>
      spinner_stop spinner_detectingFiles (detected_text staged) ;;
      config <- await_getConfig config_args ;;
      bgInfo <- await_text text_message text_placeholder ;;
      match bgInfo with
      | Cancel => outro cancelled_text ;; return_
      | Value bgInfo =>
          prefix <- await_select prefix_message prefix_options None ;;
          match prefix with
          | Cancel => outro cancelled_text ;; return_
          | Value prefix =>
              spinner_start spinner_s analyzing_text ;;
              messages <- try_finally
                (await_generateCommitMessage
                   (generate_args config staged bgInfo prefix))
                (spinner_stop spinner_s analyzed_text) ;;
              (if (length messages =? 0)%nat
               then throw EmptyGeneration
               else ret tt) ;;
              message <-
                (if (length messages =? 1)%nat then
                   let message := decorate prefix (hd "" messages) in
                   confirmed <- await_select (confirm_message message)
                                 confirm_options (Some "yes") ;;
                   (if strict_eq confirmed "cancel" || isCancel confirmed
                    then outro cancelled_text ;; return_
                    else ret tt) ;;
                   (if strict_eq confirmed "regenerate"
                    then await_execa "aim" rawArgv StdioInherit ;; return_
                    else ret tt) ;;
                   ret message
                 else
                   selected <- await_select pick_message (pick_options messages) None ;;
                   match selected with
                   | Cancel => outro cancelled_text ;; return_
                   | Value selected => ret (decorate prefix selected)
                   end) ;;
              await_execa "git" ("commit" :: "-m" :: message :: rawArgv) StdioDefault ;;
              outro success_line
          end
      end
  end.

(** The handler given to [.catch] (lines 161-165). *)
Definition on_error (error : Error) : M unit :=
  outro (failure_line error) ;;
  handleCliError error ;;
  process_exit 1.

(** What one invocation leaves behind: how the promise of the inner
    function settled, and the log of everything that was called. *)
Record Run : Type := mkRun { settled : Settled unit; trace : list Event }.

(** Calling the inner function: a normal end or a [return] fulfils its
    promise, a [throw] rejects it. *)
Definition call_async (m : M unit) : Settled unit * list Event :=
  match m [] with
  | (Normal _, log) => (Resolved tt, log)
  | (Return, log) => (Resolved tt, log)
  | (Throw e, log) => (Rejected e, log)
  end.

(** The exported function: [(async () => { ... })().catch(...)]. *)
Definition aicommits : Run :=
  match call_async body with
  | (Resolved v, log) => mkRun (Resolved v) log
  | (Rejected e, log) => mkRun (Rejected e) (snd (on_error e log))
  end.

End Command.

(** ** Reading a run *)

(** The exit status of the process: [process.exit(code)] ends it with
    [code]; a process that comes to its end without that call ends with
    status 0. *)
Fixpoint exit_code (log : list Event) : Z :=
  match log with
  | [] => 0
  | ProcessExit code :: _ => code
  | _ :: rest => exit_code rest
  end.

(** An invocation of the commit operation: [execa('git', ['commit', ...])]. *)
Definition is_commit (ev : Event) : bool :=
  match ev with
  | Execa file args _ _ =>
      if file =? "git"
      then match args with a :: _ => a =? "commit" | [] => false end
      else false
  | _ => false
  end.

(** A child process running the command again: [execa('aim', ...)]. *)
Definition is_respawn (ev : Event) : bool :=
  match ev with
  | Execa file _ _ _ => file =? "aim"
  | _ => false
  end.

(** A question put to the user. *)
Definition is_prompt (ev : Event) : bool :=
  match ev with
  | Text _ _ _ | Select _ _ _ _ => true
  | _ => false
  end.

Definition commits (log : list Event) : list Event := filter is_commit log.
Definition respawns (log : list Event) : list Event := filter is_respawn log.
Definition prompts (log : list Event) : list Event := filter is_prompt log.

(** [l] ends with [suffix]. *)
Definition ends_with {A} (l suffix : list A) : Prop :=
  exists before, l = (before ++ suffix)%list.

(** [seg] occurs in [l] as one contiguous run. *)
Definition has_segment {A} (l seg : list A) : Prop :=
  exists before after, l = (before ++ seg ++ after)%list.

(** The user backing out at a prompt: the cancel symbol at any prompt, or
    the option ['cancel'] of the confirmation prompt. *)
Inductive Cancellation : Event -> Prop :=
| cancel_text msg placeholder :
    Cancellation (Text msg placeholder Cancel)
| cancel_select msg options initialValue :
    Cancellation (Select msg options initialValue Cancel)
| cancel_commit msg :
    Cancellation (Select msg confirm_options (Some "yes") (Value "cancel")).

(** The prompts of the selection step: the three-way confirmation of a
    single candidate, and the pick among several. *)
Inductive MessageSelection : Event -> Prop :=
| selection_confirm msg r :
    MessageSelection (Select msg confirm_options (Some "yes") r)
| selection_pick msg messages r :
    MessageSelection (Select msg (pick_options messages) None r).

(** The fatal condition an event stands for, if any: a collaborator's
    promise that rejected, an absent staged diff, an empty candidate list. *)
Definition failure (ev : Event) : option Error :=
  match ev with
  | AssertGitRepo (Rejected e) => Some e
  | Execa _ _ _ (Rejected e) => Some e
  | GetStagedDiff _ (Rejected e) => Some e
  | GetStagedDiff _ (Resolved None) => Some NoStagedChanges
  | GetConfig _ (Rejected e) => Some e
  | GenerateCommitMessage _ (Rejected e) => Some e
  | GenerateCommitMessage _ (Resolved []) => Some EmptyGeneration
  | _ => None
  end.

(** The events of the [.catch] handler that follow its [outro]. *)
Definition is_handler (ev : Event) : bool :=
  match ev with
  | HandleCliError _ | ProcessExit _ => true
  | _ => false
  end.

(** The fallible operations of a run, the ones a retry would repeat.  An
    [execa] call is the commit, the child running the command again, or
    another process (the only other one the command starts is
    [git add --update]). *)
Inductive Operation : Type :=
| OpAssertGitRepo
| OpGetStagedDiff
| OpGetConfig
| OpGenerate
| OpCommit
| OpRespawn
| OpOtherProcess.

Definition operation (ev : Event) : option Operation :=
  match ev with
  | AssertGitRepo _ => Some OpAssertGitRepo
  | Execa _ _ _ _ =>
      if is_commit ev then Some OpCommit
      else if is_respawn ev then Some OpRespawn
      else Some OpOtherProcess
  | GetStagedDiff _ _ => Some OpGetStagedDiff
  | GetConfig _ _ => Some OpGetConfig
  | GenerateCommitMessage _ _ => Some OpGenerate
  | _ => None
  end.

Fixpoint operations (log : list Event) : list Operation :=
  match log with
  | [] => []
  | ev :: rest =>
      match operation ev with
      | Some op => op :: operations rest
      | None => operations rest
      end
  end.

(** ** Scenarios

    Concrete collaborators, to run the command on.  Colours are switched
    off (kolorist then hands its argument back), one file is staged and the
    configuration resolves; the remaining answers are parameters. *)
Definition plain (x : string) : string := x.

Definition sample_staged : Staged :=
  mkStaged ["src/login.ts"] "diff --git a/src/login.ts b/src/login.ts".

Definition sample_config : Config.t :=
  Config.mk "sk-test" "gpt-3.5-turbo" "en" 1 50 "" 10000 None.

Definition sample_detected (files : list string) : string :=
  "Detected " ++ decimal (Z.of_nat (length files)) ++ " staged file"
    ++ (if (1 <? length files)%nat then "s" else "").

(** The user at the [select] prompts: [prefix] at the prefix prompt,
    [confirm] at the three-way confirmation, [pick] at a pick among several
    candidates. *)
Definition answers (prefix confirm pick : Reply)
    (msg : string) (options : list SelectOption) (initialValue : option string) : Reply :=
  if msg =? prefix_message then prefix
  else match initialValue with
       | Some _ => confirm
       | None => pick
       end.

Definition scenario (staged : Settled (option Staged)) (note : Reply)
    (prefix confirm pick : Reply) (generated : Settled (list string))
    (commit respawn : Settled unit) : Env :=
  mkEnv plain plain plain plain plain
    (Resolved tt)
    (fun _ => staged)
    sample_detected
    (fun _ => Resolved sample_config)
    (fun _ => generated)
    (fun file _ _ => if file =? "aim" then respawn else commit)
    (fun _ _ => note)
    (answers prefix confirm pick)
    (fun _ => None).

(** Scenario A of the specification: one candidate, prefix [fix], the user
    confirms. *)
Definition scenario_A : Env :=
  scenario (Resolved (Some sample_staged)) (Value "")
    (Value "fix") (Value "yes") Cancel
    (Resolved ["add login guard"]) (Resolved tt) (Resolved tt).

(** Scenario B: nothing is staged. *)
Definition scenario_B : Env :=
  scenario (Resolved None) (Value "")
    (Value "fix") (Value "yes") Cancel
    (Resolved ["add login guard"]) (Resolved tt) (Resolved tt).

(** Scenario C: three candidates, no prefix, the user picks the second. *)
Definition scenario_C : Env :=
  scenario (Resolved (Some sample_staged)) (Value "")
    (Value "") Cancel (Value "guard the login route")
    (Resolved ["add login guard"; "guard the login route"; "check session on login"])
    (Resolved tt) (Resolved tt).

(** Scenario D: the generation call times out. *)
Definition scenario_D : Env :=
  scenario (Resolved (Some sample_staged)) (Value "")
    (Value "fix") (Value "yes") Cancel
    (Rejected (mkError false "Time out error: request took over 10000ms."))
    (Resolved tt) (Resolved tt).

(** The generation service answers with no candidate at all. *)
Definition scenario_empty : Env :=
  scenario (Resolved (Some sample_staged)) (Value "")
    (Value "fix") (Value "yes") Cancel
    (Resolved []) (Resolved tt) (Resolved tt).

(** One candidate, and the user asks for another one. *)
Definition scenario_regenerate : Env :=
  scenario (Resolved (Some sample_staged)) (Value "")
    (Value "fix") (Value "regenerate") Cancel
    (Resolved ["add login guard"]) (Resolved tt) (Resolved tt).

(** The user cancels at the background note, at the prefix, at the
    confirmation (by the cancel symbol, or by "No, cancel commit"), and at
    the pick. *)
Definition scenario_cancel_note : Env :=
  scenario (Resolved (Some sample_staged)) Cancel
    (Value "fix") (Value "yes") Cancel
    (Resolved ["add login guard"]) (Resolved tt) (Resolved tt).

Definition scenario_cancel_prefix : Env :=
  scenario (Resolved (Some sample_staged)) (Value "")
    Cancel (Value "yes") Cancel
    (Resolved ["add login guard"]) (Resolved tt) (Resolved tt).

Definition scenario_cancel_confirm : Env :=
  scenario (Resolved (Some sample_staged)) (Value "")
    (Value "fix") Cancel Cancel
    (Resolved ["add login guard"]) (Resolved tt) (Resolved tt).

Definition scenario_no_cancel : Env :=
  scenario (Resolved (Some sample_staged)) (Value "")
    (Value "fix") (Value "cancel") Cancel
    (Resolved ["add login guard"]) (Resolved tt) (Resolved tt).

Definition scenario_cancel_pick : Env :=
  scenario (Resolved (Some sample_staged)) (Value "")
    (Value "fix") (Value "yes") Cancel
    (Resolved ["add login guard"; "guard the login route"])
    (Resolved tt) (Resolved tt).

(** The commit is rejected (a failing hook, say). *)
Definition scenario_commit_fails : Env :=
  scenario (Resolved (Some sample_staged)) (Value "typo in the guard")
    (Value "entrust") (Value "yes") Cancel
    (Resolved ["🐛 fix: add login guard"])
    (Rejected (mkError false "Command failed with exit code 1: git commit"))
    (Resolved tt).

(** The invocation used with the scenarios: no flag, one pass-through
    argument. *)
Definition run_scenario (env : Env) : Run :=
  aicommits env None [] false None ["--no-verify"].

(** ** Further readings of a run *)

(** A closing line. *)
Definition is_outro (ev : Event) : bool :=
  match ev with Outro _ => true | _ => false end.


(** The staged-change detector itself fails. *)
Definition scenario_diff_fails : Env :=
  scenario (Rejected (mkError false "Command failed: git diff --cached"))
    (Value "") (Value "fix") (Value "yes") Cancel
    (Resolved ["add login guard"]) (Resolved tt) (Resolved tt).

(** Scenario A outside a repository. *)
Definition scenario_not_a_repo : Env :=
  mkEnv plain plain plain plain plain
    (Rejected (KnownError "The current directory must be a Git repository!"))
    (getStagedDiff scenario_A)
    sample_detected
    (getConfig scenario_A)
    (generateCommitMessage scenario_A)
    (execa scenario_A)
    (text scenario_A)
    (select scenario_A)
    (process_env scenario_A).

(** ** Proof tools *)

Lemma ends_with_here {A} (l : list A) : ends_with l l.
Proof. exists []. reflexivity. Qed.

Lemma ends_with_later {A} (x : A) (l suffix : list A) :
  ends_with l suffix -> ends_with (x :: l) suffix.
Proof. intros [before ->]. exists (x :: before). reflexivity. Qed.

Lemma has_segment_here {A} (seg rest : list A) : has_segment (seg ++ rest) seg.
Proof. exists [], rest. reflexivity. Qed.

Lemma has_segment_later {A} (x : A) (l seg : list A) :
  has_segment l seg -> has_segment (x :: l) seg.
Proof. intros (before & rest & ->). exists (x :: before), rest. reflexivity. Qed.

Lemma pick_options_not_prefix_options (messages : list string) :
  pick_options messages <> prefix_options.
Proof.
  destruct messages as [|m rest]; [discriminate|].
  cbn. intros H. injection H as Hlabel Hvalue _. subst m. discriminate.
Qed.

(** Symbolic execution of a run: unfold the monad, then branch on the
    collaborators' answers in the order the command asks for them. *)
Ltac unfold_run :=
  cbv beta iota zeta delta
    [aicommits call_async body on_error bind ret throw return_ emit await
     try_finally when intro outro spinner_start spinner_stop
     await_assertGitRepo await_execa await_getStagedDiff await_getConfig
     await_generateCommitMessage await_text await_select handleCliError
     process_exit strict_eq isCancel orb snd fst];
  cbn [app].

Ltac head_of t :=
  lazymatch t with
  | match ?x with _ => _ end => head_of x
  | (match ?x with _ => _ end) _ => head_of x
  | _ => t
  end.

Ltac branch_on h :=
  first
    [ is_var h; destruct h
    | lazymatch h with
      | Nat.eqb (length ?l) _ =>
          destruct l as [|? [|? ?]]; cbn [length Nat.eqb hd]
      | String.eqb ?a ?b => destruct (String.eqb_spec a b); [subst a|]
      | _ => destruct h eqn:?
      end ].

Ltac step :=
  match goal with
  | |- context [match ?x with _ => _ end] =>
      let h := head_of x in
      branch_on h; cbv beta iota zeta; cbn [app hd length Nat.eqb]
  end.

Ltac explore := unfold_run; repeat step.

(** Membership in an explicit log, as a goal and as a hypothesis. *)
Ltac find_in := cbn [In]; repeat (first [left; reflexivity | right]).

Ltac in_cases H :=
  cbn [In] in H;
  repeat (destruct H as [H|H]; [try (subst; discriminate); try subst | ]);
  try contradiction.

Ltac show_cancellation :=
  match goal with
  | |- context [Text ?m ?p Cancel] => exists (Text m p Cancel)
  | |- context [Select ?m ?o ?i Cancel] => exists (Select m o i Cancel)
  | |- context [Select ?m confirm_options (Some "yes") (Value "cancel")] =>
      exists (Select m confirm_options (Some "yes") (Value "cancel"))
  end;
  split; [find_in | constructor].

Ltac show_failure :=
  match goal with
  | |- context [?ev :: _] => exists ev; split; [find_in | reflexivity]
  end.

Ltac show_ends_with :=
  repeat first [apply ends_with_here | apply ends_with_later].

Ltac show_segment :=
  repeat first
    [ lazymatch goal with
      | |- has_segment _ ?seg => exact (has_segment_here seg _)
      end
    | apply has_segment_later ].


(** Case analysis on a run: every path of the command, each with its log
    written out. *)
Ltac run_cases :=
  match goal with
  | |- context [aicommits ?E ?g ?x ?sa ?c ?a] =>
      let r := fresh "r" in
      let Hr := fresh "Hr" in
      remember (aicommits E g x sa c a) as r eqn:Hr;
      revert Hr; explore; intros Hr; subst r;
      repeat match goal with u : unit |- _ => destruct u end;
      cbn [trace settled]
  end.

(** Two events of the same kind that are equal: compare their fields.  The
    pick among candidates is never the prefix prompt. *)
Ltac same_event H :=
  first [injection H; clear H; intros; subst | clear H];
  try match goal with
      | Ho : pick_options _ = prefix_options |- _ =>
          exfalso; exact (pick_options_not_prefix_options _ Ho)
      end.

(** Introduce, split conjunctions, and discard the cases whose hypotheses
    contradict each other. *)
Ltac tidy :=
  repeat first
    [ progress intros
    | match goal with
      | H : Resolved _ = Rejected _ |- _ => discriminate H
      | H : Rejected _ = Resolved _ |- _ => discriminate H
      | H : Rejected _ = Rejected _ |- _ => injection H as ?; subst
      | H : _ :: _ = [] |- _ => discriminate H
      | H : [] <> [] |- _ => contradiction H; reflexivity
      | H : In _ [] |- _ => contradiction H
      | |- _ /\ _ => split
      end ].

(** ** Facts about the pure parts *)

Lemma pick_options_values (messages : list string) :
  map value (pick_options messages) = messages.
Proof.
  unfold pick_options. rewrite map_map. cbn. apply map_id.
Qed.

Lemma pick_options_labels (messages : list string) :
  map label (pick_options messages) = messages.
Proof.
  unfold pick_options. rewrite map_map. cbn. apply map_id.
Qed.

Lemma pick_options_no_hint (messages : list string) (o : SelectOption) :
  In o (pick_options messages) -> hint o = None.
Proof.
  unfold pick_options. rewrite in_map_iff. intros (m & <- & _). reflexivity.
Qed.

(** The cleanup of [try]/[finally] is logged after the body, whatever the
    completion of the body. *)
Lemma try_finally_emit {A} (body : M A) (ev : Event) (log : list Event) :
  try_finally body (emit ev) log
  = (fst (body log), (snd (body log) ++ [ev])%list).
Proof.
  unfold try_finally, emit. destruct (body log) as [c log']. reflexivity.
Qed.



(** ** The decoration rule *)

(** C1.  For a prefix [p] of the table [commitPrefixes] with label [label]
    and any raw message [m]: when [p] is the empty key (the option "None")
    or [entrust], the decorated message is [m] itself; otherwise it is the
    label, then [": "], then [m].  Decorating again with the empty key
    changes nothing.  Prefix [fix] on ["add login guard"] gives
    ["🐛 fix: add login guard"], and that is the message scenario A
    commits. *)
Theorem C1_decoration_rule (p label m : string) :
  get commitPrefixes p = Some label ->
  (p = "" \/ p = "entrust" -> decorate p m = m)
  /\ (p <> "" -> p <> "entrust" -> decorate p m = label ++ ": " ++ m)
  /\ decorate "" (decorate p m) = decorate p m
  /\ decorate "fix" "add login guard" = "🐛 fix: add login guard"
  /\ commits (trace (run_scenario scenario_A)) =
       [Execa "git" ["commit"; "-m"; "🐛 fix: add login guard"; "--no-verify"]
          StdioDefault (Resolved tt)].
Proof.
  intros Hlabel. unfold decorate.
  repeat split.
  - intros [-> | ->]; reflexivity.
  - intros Hnone Hentrust.
    destruct (String.eqb_spec p "entrust"); [contradiction|].
    destruct (String.eqb_spec p ""); [contradiction|].
    cbn [orb]. rewrite Hlabel. reflexivity.
Qed.

(** ** Properties of every run *)

Section Properties.

Variable E : Env.
Variable generate : option Number.
Variable excludeFiles : list string.
Variable stageAll : bool.
Variable commitType : option string.
Variable rawArgv : list string.

Local Abbreviation run :=
  (aicommits E generate excludeFiles stageAll commitType rawArgv).

(** C2 (amended).  In every run the commit operation is invoked either not
    at all, or exactly once, with the one final message [decorate p c]:
    [p] is the answer to the prefix prompt and [c] the chosen candidate
    (the only one generated, or the one picked among several).  It is not
    invoked when the user cancels at a prompt, when the command is run
    again in a child process, or when a step before the commit fails; a
    commit that is itself rejected was invoked once.  A run without a
    commit is one of those three. *)
Theorem C2_one_commit_or_none :
  (commits (trace run) = [] \/
   exists p c messages args result,
     In (Select prefix_message prefix_options None (Value p)) (trace run) /\
     In (GenerateCommitMessage args (Resolved messages)) (trace run) /\
     (messages = [c] \/
      In (Select (pick_message E) (pick_options messages) None (Value c))
         (trace run)) /\
     commits (trace run) =
       [Execa "git" ("commit" :: "-m" :: decorate p c :: rawArgv)
          StdioDefault result])
  /\ (forall ev, In ev (trace run) -> Cancellation ev -> commits (trace run) = [])
  /\ (respawns (trace run) <> [] -> commits (trace run) = [])
  /\ (forall ev e, In ev (trace run) -> failure ev = Some e ->
        is_commit ev = false -> commits (trace run) = [])
  /\ (commits (trace run) = [] ->
        (exists ev, In ev (trace run) /\ Cancellation ev)
        \/ respawns (trace run) <> []
        \/ exists e, settled run = Rejected e).
Proof.
  run_cases.
  all: cbn [commits respawns filter is_commit is_respawn
            String.eqb Ascii.eqb Bool.eqb].
  all: repeat match goal with |- _ /\ _ => split end.
  all: try solve [left; reflexivity].
  all: try solve [intros; reflexivity].
  all: try solve [intros H; exfalso; apply H; reflexivity].
  all: try solve [intros H; discriminate H].
  all: try solve [right; do 5 eexists;
                  (split; [find_in|]); (split; [find_in|]);
                  (split; [first [left; reflexivity | right; find_in]|]);
                  reflexivity].
  all: try solve [intros ev H HC; in_cases H; inversion HC; congruence].
  all: try solve [intros ev err H HF HC; in_cases H; cbn in HF, HC; congruence].
  all: try solve [intros _; right; right; eexists; reflexivity].
  all: try solve [intros _; right; left; discriminate].
  all: try solve [intros _; left; show_cancellation].
Qed.

(** C3.  Whenever the user cancels at a prompt (the background note, the
    prefix, the confirmation of a single candidate, there also by choosing
    "No, cancel commit", or the pick among several candidates), the run
    ends right there: the only thing that follows is the farewell
    "Commit cancelled".  No commit is invoked, no child process is started,
    the promise of the command is fulfilled and not rejected, and the
    process ends with status 0. *)
Theorem C3_cancellation_ends_cleanly (ev : Event) :
  In ev (trace run) -> Cancellation ev ->
  ends_with (trace run) [ev; Outro "Commit cancelled"]
  /\ commits (trace run) = []
  /\ respawns (trace run) = []
  /\ settled run = Resolved tt
  /\ exit_code (trace run) = 0%Z.
Proof.
  run_cases.
  all: intros Hin Hcancel; in_cases Hin; inversion Hcancel; subst; try congruence.
  all: repeat split; try reflexivity; show_ends_with.
Qed.

(** C4.  When the user answers "No, regenerate" at the confirmation prompt
    (the prompt of a candidate list of length one: the generation call of
    the run resolved to a single candidate [c]), the run starts exactly one
    child process, the program [aim] with the raw arguments it was given
    itself and with [stdio: 'inherit'], and invokes no commit.  The child
    is the last thing the run does: its promise is the promise of the
    command, so nothing follows when the child succeeds, and only the
    error handler when it fails. *)
Theorem C4_regenerate_respawns_once (msg : string) :
  In (Select msg confirm_options (Some "yes") (Value "regenerate")) (trace run) ->
  exists args c result,
    In (GenerateCommitMessage args (Resolved [c])) (trace run)
    /\ respawns (trace run) = [Execa "aim" rawArgv StdioInherit result]
    /\ commits (trace run) = []
    /\ settled run = result
    /\ ends_with (trace run)
         (Select msg confirm_options (Some "yes") (Value "regenerate")
          :: Execa "aim" rawArgv StdioInherit result
          :: match result with
             | Resolved _ => []
             | Rejected e =>
                 [Outro (failure_line E e); HandleCliError e; ProcessExit 1]
             end).
Proof.
  run_cases.
  all: intros Hin; in_cases Hin; same_event Hin; try congruence.
  all: do 3 eexists; split; [find_in|].
  all: cbn [commits respawns filter is_commit is_respawn
            String.eqb Ascii.eqb Bool.eqb].
  all: repeat split; try reflexivity; show_ends_with.
Qed.

(** C5.  When the generation call resolves to more than one candidate, the
    only prompt after the note and the prefix is one [select] with no
    initial value whose options are the candidates, one option each, in
    the order generated (option values and labels are the candidate
    list).  If the user picks [c], the very next call is the commit with
    [decorate p c], [p] being the prefix answer: no confirmation, and no
    child process is ever started.  If the user cancels, the run ends
    with the farewell, no commit, status 0. *)
Theorem C5_pick_among_several (args : GenArgs.t) (messages : list string) :
  In (GenerateCommitMessage args (Resolved messages)) (trace run) ->
  (1 < length messages)%nat ->
  exists note p reply,
    prompts (trace run) =
      [Text text_message text_placeholder (Value note);
       Select prefix_message prefix_options None (Value p);
       Select (pick_message E) (pick_options messages) None reply]
    /\ map value (pick_options messages) = messages
    /\ map label (pick_options messages) = messages
    /\ respawns (trace run) = []
    /\ match reply with
       | Value c =>
           exists result,
             has_segment (trace run)
               [Select (pick_message E) (pick_options messages) None (Value c);
                Execa "git" ("commit" :: "-m" :: decorate p c :: rawArgv)
                  StdioDefault result]
             /\ commits (trace run) =
                  [Execa "git" ("commit" :: "-m" :: decorate p c :: rawArgv)
                     StdioDefault result]
       | Cancel =>
           ends_with (trace run)
             [Select (pick_message E) (pick_options messages) None Cancel;
              Outro "Commit cancelled"]
           /\ commits (trace run) = []
           /\ settled run = Resolved tt
           /\ exit_code (trace run) = 0%Z
       end.
Proof.
  run_cases.
  all: intros Hin Hlen; in_cases Hin; same_event Hin;
       try (cbn in Hlen; lia).
  all: do 3 eexists.
  all: cbn [commits respawns prompts filter is_commit is_respawn is_prompt
            String.eqb Ascii.eqb Bool.eqb].
  all: split; [reflexivity|].
  all: split; [apply pick_options_values|].
  all: split; [apply pick_options_labels|].
  all: split; [reflexivity|].
  all: try (eexists; split; [show_segment | reflexivity]).
  all: repeat split; try reflexivity; show_ends_with.
Qed.

(** C6 (amended).  When the generation call resolves to no candidate, the
    command is rejected with [EmptyGeneration] ("No commit messages were
    generated. Try again.") before any message-selection prompt: the only
    prompts of the run are the background note and the prefix, both
    answered before the generation call, and neither the confirmation nor
    the pick is shown.  After the spinner is stopped only the error
    handler runs; no commit is invoked and the status is 1. *)
Theorem C6_empty_generation (args : GenArgs.t) :
  In (GenerateCommitMessage args (Resolved [])) (trace run) ->
  settled run = Rejected EmptyGeneration
  /\ message EmptyGeneration = "No commit messages were generated. Try again."
  /\ (exists note p,
        prompts (trace run) =
          [Text text_message text_placeholder (Value note);
           Select prefix_message prefix_options None (Value p)])
  /\ (forall ev, In ev (trace run) -> ~ MessageSelection ev)
  /\ ends_with (trace run)
       [GenerateCommitMessage args (Resolved []);
        SpinnerStop spinner_s "Changes analyzed";
        Outro (red E "✖" ++ " " ++ message EmptyGeneration);
        HandleCliError EmptyGeneration;
        ProcessExit 1]
  /\ commits (trace run) = []
  /\ respawns (trace run) = []
  /\ exit_code (trace run) = 1%Z.
Proof.
  run_cases.
  all: intros Hin; in_cases Hin; same_event Hin; try congruence.
  all: cbn [commits respawns prompts filter is_commit is_respawn is_prompt
            String.eqb Ascii.eqb Bool.eqb].
  all: repeat match goal with |- _ /\ _ => split end; try reflexivity.
  all: try solve [do 2 eexists; reflexivity].
  all: try solve [show_ends_with].
  all: intros ev Hev Hsel; in_cases Hev; inversion Hsel.
  all: match goal with
       | Ho : pick_options _ = prefix_options |- _ =>
           exact (pick_options_not_prefix_options _ Ho)
       | Ho : prefix_options = pick_options _ |- _ =>
           exact (pick_options_not_prefix_options _ (eq_sym Ho))
       end.
Qed.

(** C7.  When the staged-change detector resolves to nothing (whether or
    not the stage-all flag was given), the command is rejected with
    [NoStagedChanges], whose message tells the user to stage changes by
    hand or to pass [--all]; the first spinner is stopped, the handler
    prints the message and exits with status 1; no prompt is shown and no
    commit is invoked. *)
Theorem C7_no_staged_changes :
  In (GetStagedDiff excludeFiles (Resolved None)) (trace run) ->
  settled run = Rejected NoStagedChanges
  /\ message NoStagedChanges =
       "No staged changes found. Stage your changes manually, or automatically stage all changes with the `--all` flag."
  /\ ends_with (trace run)
       [GetStagedDiff excludeFiles (Resolved None);
        SpinnerStop spinner_detectingFiles "Detecting staged files";
        Outro (red E "✖" ++ " " ++ message NoStagedChanges);
        HandleCliError NoStagedChanges;
        ProcessExit 1]
  /\ exit_code (trace run) = 1%Z
  /\ commits (trace run) = []
  /\ prompts (trace run) = [].
Proof.
  run_cases.
  all: intros Hin; in_cases Hin; same_event Hin; try congruence.
  all: repeat split; try reflexivity; show_ends_with.
Qed.

(** C8.  Every run ends.  A run whose promise is fulfilled ends with status
    0, the handler never runs and no step has failed.  A run whose promise
    is rejected with [e] ends with status 1 after the handler, which runs
    exactly once, has printed the message of [e]; and some step of the run
    did fail with [e].  Conversely any failing step (a rejected
    collaborator, among them the generation call and the commit, no staged
    changes, no candidate) rejects the run with its error.  A successful
    commit and a cancellation both end with status 0.  No fallible
    operation is performed twice, and a child process running the command
    again is started only after the user chose "No, regenerate". *)
Theorem C8_exit_codes_and_single_handler :
  (settled run = Resolved tt ->
     exit_code (trace run) = 0%Z
     /\ filter is_handler (trace run) = []
     /\ forall ev, In ev (trace run) -> failure ev = None)
  /\ (forall e, settled run = Rejected e ->
        exit_code (trace run) = 1%Z
        /\ ends_with (trace run)
             [Outro (red E "✖" ++ " " ++ message e); HandleCliError e; ProcessExit 1]
        /\ filter is_handler (trace run) = [HandleCliError e; ProcessExit 1]
        /\ exists ev, In ev (trace run) /\ failure ev = Some e)
  /\ (forall ev e, In ev (trace run) -> failure ev = Some e ->
        settled run = Rejected e)
  /\ (forall ev, In ev (trace run) -> is_commit ev = true -> failure ev = None ->
        exit_code (trace run) = 0%Z)
  /\ (forall ev, In ev (trace run) -> Cancellation ev ->
        exit_code (trace run) = 0%Z)
  /\ NoDup (operations (trace run))
  /\ (In OpRespawn (operations (trace run)) ->
        exists msg,
          In (Select msg confirm_options (Some "yes") (Value "regenerate"))
             (trace run)).
Proof.
  run_cases.
  all: cbn [exit_code filter is_handler operations operation is_commit is_respawn
            String.eqb Ascii.eqb Bool.eqb andb].
  all: repeat match goal with |- _ /\ _ => split end.
  all: tidy.
  all: try reflexivity.
  all: try solve [show_ends_with].
  all: try solve [show_failure].
  all: try solve [repeat constructor; cbn [In]; intuition discriminate].
  all: try solve [eexists; find_in].
  all: try match goal with
           | H : In _ (_ :: _) |- _ => in_cases H
           end.
  all: try reflexivity.
  all: try solve [cbn in *; congruence].
  all: try match goal with
           | H : Cancellation _ |- _ => solve [inversion H; congruence]
           end.
Qed.

(** C9.  The cleanup of the [try]/[finally] that stops the second spinner
    is logged after the body whatever the body's completion.  In a run,
    every start of that spinner is followed by the generation call and
    then by the stop "Changes analyzed", for any outcome of the call.
    When the call is rejected with [e], the run is rejected with [e] and
    ends with status 1: after the stop only the error handler runs, no
    message-selection prompt is shown, no commit is invoked and no child
    process is started. *)
Theorem C9_spinner_stops_and_failure_aborts :
  (forall (A : Type) (body : M A) (log : list Event),
     snd (try_finally body (spinner_stop spinner_s "Changes analyzed") log)
     = (snd (body log) ++ [SpinnerStop spinner_s "Changes analyzed"])%list)
  /\ (forall text, In (SpinnerStart spinner_s text) (trace run) ->
        exists args result,
          has_segment (trace run)
            [SpinnerStart spinner_s text;
             GenerateCommitMessage args result;
             SpinnerStop spinner_s "Changes analyzed"])
  /\ (forall args result, In (GenerateCommitMessage args result) (trace run) ->
        has_segment (trace run)
          [SpinnerStart spinner_s "The AI is analyzing your changes";
           GenerateCommitMessage args result;
           SpinnerStop spinner_s "Changes analyzed"])
  /\ (forall args e, In (GenerateCommitMessage args (Rejected e)) (trace run) ->
        settled run = Rejected e
        /\ exit_code (trace run) = 1%Z
        /\ ends_with (trace run)
             [GenerateCommitMessage args (Rejected e);
              SpinnerStop spinner_s "Changes analyzed";
              Outro (red E "✖" ++ " " ++ message e);
              HandleCliError e;
              ProcessExit 1]
        /\ (forall ev, In ev (trace run) -> ~ MessageSelection ev)
        /\ commits (trace run) = []
        /\ respawns (trace run) = []).
Proof.
  split.
  { intros A body log. unfold spinner_stop. rewrite try_finally_emit. reflexivity. }
  run_cases.
  all: cbn [exit_code commits respawns filter is_commit is_respawn
            String.eqb Ascii.eqb Bool.eqb andb].
  all: repeat match goal with |- _ /\ _ => split end.
  all: intros until 1.
  all: match goal with
       | H : In _ _ |- _ => in_cases H; same_event H; try congruence
       end.
  all: tidy.
  all: try reflexivity.
  all: try solve [show_ends_with].
  all: try solve [do 2 eexists; show_segment].
  all: try solve [show_segment].
  all: try match goal with
           | H : In _ (_ :: _) |- ~ MessageSelection _ =>
               intros HS; in_cases H; inversion HS
           end.
  all: try match goal with
           | Ho : pick_options _ = prefix_options |- _ =>
               exact (pick_options_not_prefix_options _ Ho)
           | Ho : prefix_options = pick_options _ |- _ =>
               exact (pick_options_not_prefix_options _ (eq_sym Ho))
           end.
Qed.


End Properties.

(** ** The scenarios, run *)

(** Facts about a scenario hold by running it. *)
Ltac by_computation := vm_compute; repeat (first [left; reflexivity | right]).

(** The decoration rule at prefix [fix]. *)
Lemma C1_witness :
  get commitPrefixes "fix" = Some "🐛 fix"
  /\ decorate "fix" "add login guard" = "🐛 fix" ++ ": " ++ "add login guard"
  /\ decorate "" (decorate "fix" "add login guard") = decorate "fix" "add login guard".
Proof.
  split; [reflexivity|].
  destruct (C1_decoration_rule "fix" "🐛 fix" "add login guard" eq_refl)
    as (_ & Hlabel & Hagain & _).
  split; [apply Hlabel; discriminate | exact Hagain].
Defined.

(** The user cancels at the background note. *)
Lemma C3_witness :
  In (Text text_message text_placeholder Cancel)
     (trace (run_scenario scenario_cancel_note))
  /\ Cancellation (Text text_message text_placeholder Cancel)
  /\ ends_with (trace (run_scenario scenario_cancel_note))
       [Text text_message text_placeholder Cancel; Outro "Commit cancelled"]
  /\ commits (trace (run_scenario scenario_cancel_note)) = []
  /\ settled (run_scenario scenario_cancel_note) = Resolved tt
  /\ exit_code (trace (run_scenario scenario_cancel_note)) = 0%Z.
Proof.
  assert (Hin : In (Text text_message text_placeholder Cancel)
                   (trace (run_scenario scenario_cancel_note)))
    by by_computation.
  assert (Hcancel : Cancellation (Text text_message text_placeholder Cancel))
    by constructor.
  destruct (C3_cancellation_ends_cleanly scenario_cancel_note None [] false None
              ["--no-verify"] _ Hin Hcancel)
    as (Hends & Hcommits & _ & Hsettled & Hexit).
  exact (conj Hin (conj Hcancel (conj Hends (conj Hcommits (conj Hsettled Hexit))))).
Defined.

(** One candidate, "No, regenerate": one child, no commit. *)
Lemma C4_witness :
  In (Select (confirm_message "🐛 fix: add login guard") confirm_options
        (Some "yes") (Value "regenerate"))
     (trace (run_scenario scenario_regenerate))
  /\ respawns (trace (run_scenario scenario_regenerate)) =
       [Execa "aim" ["--no-verify"] StdioInherit (Resolved tt)]
  /\ commits (trace (run_scenario scenario_regenerate)) = [].
Proof.
  assert (Hin : In (Select (confirm_message "🐛 fix: add login guard")
                      confirm_options (Some "yes") (Value "regenerate"))
                   (trace (run_scenario scenario_regenerate)))
    by by_computation.
  destruct (C4_regenerate_respawns_once scenario_regenerate None [] false None
              ["--no-verify"] _ Hin)
    as (args & c & result & _ & Hrespawns & Hcommits & Hsettled & _).
  split; [exact Hin|].
  split; [|exact Hcommits].
  unfold run_scenario. rewrite Hrespawns, <- Hsettled. reflexivity.
Defined.

(** Scenario C: three candidates, one pick prompt, no child process. *)
Lemma C5_witness :
  In (GenerateCommitMessage
        (generate_args sample_config sample_staged "" "")
        (Resolved ["add login guard"; "guard the login route";
                   "check session on login"]))
     (trace (run_scenario scenario_C))
  /\ (1 < length ["add login guard"; "guard the login route";
                  "check session on login"])%nat
  /\ exists note p reply,
       prompts (trace (run_scenario scenario_C)) =
         [Text text_message text_placeholder (Value note);
          Select prefix_message prefix_options None (Value p);
          Select (pick_message scenario_C)
            (pick_options ["add login guard"; "guard the login route";
                           "check session on login"])
            None reply]
       /\ respawns (trace (run_scenario scenario_C)) = [].
Proof.
  assert (Hin : In (GenerateCommitMessage
                      (generate_args sample_config sample_staged "" "")
                      (Resolved ["add login guard"; "guard the login route";
                                 "check session on login"]))
                   (trace (run_scenario scenario_C)))
    by by_computation.
  assert (Hlen : (1 < length ["add login guard"; "guard the login route";
                              "check session on login"])%nat)
    by (cbn; lia).
  destruct (C5_pick_among_several scenario_C None [] false None
              ["--no-verify"] _ _ Hin Hlen)
    as (note & p & reply & Hprompts & _ & _ & Hrespawns & _).
  split; [exact Hin|].
  split; [exact Hlen|].
  exists note, p, reply.
  split; [exact Hprompts | exact Hrespawns].
Defined.

(** No candidate: rejected with [EmptyGeneration], status 1. *)
Lemma C6_witness :
  In (GenerateCommitMessage
        (generate_args sample_config sample_staged "" "fix") (Resolved []))
     (trace (run_scenario scenario_empty))
  /\ settled (run_scenario scenario_empty) = Rejected EmptyGeneration
  /\ commits (trace (run_scenario scenario_empty)) = []
  /\ exit_code (trace (run_scenario scenario_empty)) = 1%Z.
Proof.
  assert (Hin : In (GenerateCommitMessage
                      (generate_args sample_config sample_staged "" "fix")
                      (Resolved []))
                   (trace (run_scenario scenario_empty)))
    by by_computation.
  destruct (C6_empty_generation scenario_empty None [] false None
              ["--no-verify"] _ Hin)
    as (Hsettled & _ & _ & _ & _ & Hcommits & _ & Hexit).
  exact (conj Hin (conj Hsettled (conj Hcommits Hexit))).
Defined.

(** C2 as stated fails: a fatal error does not always mean that the commit
    was never invoked.  Here the commit itself is rejected: the run is
    rejected with its error, after one invocation of the commit. *)
Lemma C2_counterexample :
  ~ (forall e : Error,
       settled (run_scenario scenario_commit_fails) = Rejected e ->
       commits (trace (run_scenario scenario_commit_fails)) = []).
Proof.
  intros Hclaim.
  specialize (Hclaim (mkError false "Command failed with exit code 1: git commit")
                     eq_refl).
  vm_compute in Hclaim. discriminate Hclaim.
Qed.

(** C6 as stated fails: when the generation call resolves to no candidate,
    the error is not raised before any prompt is shown.  In this run the
    note and the prefix prompts have both been shown by then. *)
Lemma C6_counterexample :
  ~ (forall args : GenArgs.t,
       In (GenerateCommitMessage args (Resolved []))
          (trace (run_scenario scenario_empty)) ->
       settled (run_scenario scenario_empty) = Rejected EmptyGeneration
       /\ prompts (trace (run_scenario scenario_empty)) = []
       /\ commits (trace (run_scenario scenario_empty)) = []).
Proof.
  intros Hclaim.
  destruct (Hclaim (generate_args sample_config sample_staged "" "fix"))
    as (_ & Hprompts & _).
  - by_computation.
  - vm_compute in Hprompts. discriminate Hprompts.
Qed.

(** Scenario B: nothing is staged. *)
Lemma C7_witness :
  In (GetStagedDiff [] (Resolved None)) (trace (run_scenario scenario_B))
  /\ settled (run_scenario scenario_B) = Rejected NoStagedChanges
  /\ exit_code (trace (run_scenario scenario_B)) = 1%Z
  /\ commits (trace (run_scenario scenario_B)) = [].
Proof.
  assert (Hin : In (GetStagedDiff [] (Resolved None))
                   (trace (run_scenario scenario_B)))
    by by_computation.
  destruct (C7_no_staged_changes scenario_B None [] false None
              ["--no-verify"] Hin)
    as (Hsettled & _ & _ & Hexit & Hcommits & _).
  exact (conj Hin (conj Hsettled (conj Hexit Hcommits))).
Defined.


(** Scenario A, call by call. *)
Example scenario_A_trace :
  trace (run_scenario scenario_A) =
    [Intro " aicommits ";
     AssertGitRepo (Resolved tt);
     SpinnerStart spinner_detectingFiles "Detecting staged files";
     GetStagedDiff [] (Resolved (Some sample_staged));
     SpinnerStop spinner_detectingFiles
       ("Detected 1 staged file:" ++ nl ++ "     src/login.ts");
     GetConfig (ConfigArgs.mk None None None None) (Resolved sample_config);
     Text text_message "fixed typo" (Value "");
     Select prefix_message prefix_options None (Value "fix");
     SpinnerStart spinner_s "The AI is analyzing your changes";
     GenerateCommitMessage
       (GenArgs.mk "sk-test" "gpt-3.5-turbo" "en"
          "diff --git a/src/login.ts b/src/login.ts" "" 1 50 "" 10000 None)
       (Resolved ["add login guard"]);
     SpinnerStop spinner_s "Changes analyzed";
     Select ("Use this commit message?" ++ nl ++ nl
               ++ "   🐛 fix: add login guard" ++ nl)
       confirm_options (Some "yes") (Value "yes");
     Execa "git" ["commit"; "-m"; "🐛 fix: add login guard"; "--no-verify"]
       StdioDefault (Resolved tt);
     Outro "✔ Successfully committed!"]
  /\ settled (run_scenario scenario_A) = Resolved tt
  /\ exit_code (trace (run_scenario scenario_A)) = 0%Z.
Proof. repeat split; reflexivity. Qed.

(** Scenario C: the second of three candidates is committed as it is. *)
Example scenario_C_commits_the_pick :
  commits (trace (run_scenario scenario_C)) =
    [Execa "git" ["commit"; "-m"; "guard the login route"; "--no-verify"]
       StdioDefault (Resolved tt)]
  /\ exit_code (trace (run_scenario scenario_C)) = 0%Z.
Proof. split; reflexivity. Qed.

(** No candidate: the note and the prefix had been asked before the error
    was raised. *)
Example empty_generation_after_two_prompts :
  prompts (trace (run_scenario scenario_empty)) =
    [Text text_message "fixed typo" (Value "");
     Select prefix_message prefix_options None (Value "fix")]
  /\ settled (run_scenario scenario_empty) = Rejected EmptyGeneration.
Proof. split; reflexivity. Qed.

(** Scenario D: the timeout stops the spinner and ends the run with
    status 1; only the note and the prefix were asked. *)
Example scenario_D_aborts :
  ends_with (trace (run_scenario scenario_D))
    [SpinnerStart spinner_s "The AI is analyzing your changes";
     GenerateCommitMessage
       (generate_args sample_config sample_staged "" "fix")
       (Rejected (mkError false "Time out error: request took over 10000ms."));
     SpinnerStop spinner_s "Changes analyzed";
     Outro "✖ Time out error: request took over 10000ms.";
     HandleCliError (mkError false "Time out error: request took over 10000ms.");
     ProcessExit 1]
  /\ prompts (trace (run_scenario scenario_D)) =
       [Text text_message "fixed typo" (Value "");
        Select prefix_message prefix_options None (Value "fix")]
  /\ commits (trace (run_scenario scenario_D)) = []
  /\ exit_code (trace (run_scenario scenario_D)) = 1%Z.
Proof.
  split; [|repeat split; reflexivity].
  exists (firstn 8 (trace (run_scenario scenario_D))). reflexivity.
Qed.

(** The other places where the user can cancel. *)
Example cancel_at_the_prefix :
  ends_with (trace (run_scenario scenario_cancel_prefix))
    [Select prefix_message prefix_options None Cancel; Outro "Commit cancelled"]
  /\ commits (trace (run_scenario scenario_cancel_prefix)) = []
  /\ exit_code (trace (run_scenario scenario_cancel_prefix)) = 0%Z.
Proof.
  split; [|split; reflexivity].
  exists (firstn 7 (trace (run_scenario scenario_cancel_prefix))). reflexivity.
Qed.

Example cancel_at_the_confirmation :
  ends_with (trace (run_scenario scenario_cancel_confirm))
    [Select (confirm_message "🐛 fix: add login guard") confirm_options
       (Some "yes") Cancel;
     Outro "Commit cancelled"]
  /\ commits (trace (run_scenario scenario_cancel_confirm)) = []
  /\ exit_code (trace (run_scenario scenario_cancel_confirm)) = 0%Z.
Proof.
  split; [|split; reflexivity].
  exists (firstn 11 (trace (run_scenario scenario_cancel_confirm))). reflexivity.
Qed.

Example cancel_by_no_cancel_commit :
  Cancellation (Select (confirm_message "🐛 fix: add login guard")
                  confirm_options (Some "yes") (Value "cancel"))
  /\ ends_with (trace (run_scenario scenario_no_cancel))
       [Select (confirm_message "🐛 fix: add login guard") confirm_options
          (Some "yes") (Value "cancel");
        Outro "Commit cancelled"]
  /\ commits (trace (run_scenario scenario_no_cancel)) = []
  /\ exit_code (trace (run_scenario scenario_no_cancel)) = 0%Z.
Proof.
  split; [constructor|].
  split; [|split; reflexivity].
  exists (firstn 11 (trace (run_scenario scenario_no_cancel))). reflexivity.
Qed.

Example cancel_at_the_pick :
  ends_with (trace (run_scenario scenario_cancel_pick))
    [Select (pick_message scenario_cancel_pick)
       (pick_options ["add login guard"; "guard the login route"]) None Cancel;
     Outro "Commit cancelled"]
  /\ commits (trace (run_scenario scenario_cancel_pick)) = []
  /\ exit_code (trace (run_scenario scenario_cancel_pick)) = 0%Z.
Proof.
  split; [|split; reflexivity].
  exists (firstn 11 (trace (run_scenario scenario_cancel_pick))). reflexivity.
Qed.

(** A rejected commit: the commit was invoked once, with the candidate as
    the model wrote it ([entrust] adds no label), and the run ends with
    status 1. *)
Example commit_failure_is_fatal :
  commits (trace (run_scenario scenario_commit_fails)) =
    [Execa "git" ["commit"; "-m"; "🐛 fix: add login guard"; "--no-verify"]
       StdioDefault
       (Rejected (mkError false "Command failed with exit code 1: git commit"))]
  /\ settled (run_scenario scenario_commit_fails) =
       Rejected (mkError false "Command failed with exit code 1: git commit")
  /\ exit_code (trace (run_scenario scenario_commit_fails)) = 1%Z.
Proof. repeat split; reflexivity. Qed.

(** * Further properties of the command *)

(** ** The pure parts *)

Lemma string_append_assoc (a b c : string) : (a ++ b) ++ c = a ++ b ++ c.
Proof. induction a as [|x a IH]; cbn; [reflexivity | now rewrite IH]. Qed.



(** X1.  Decoration only ever puts something in front: for every prefix
    value, in the table or not, there is a fixed string that [decorate]
    prepends to every message, so the raw candidate is kept whole at the end
    and the length grows by exactly that string. *)
Theorem decorate_only_prefixes (p : string) :
  exists before, forall m,
    decorate p m = before ++ m
    /\ String.length (decorate p m) = (String.length before + String.length m)%nat.
Proof.
  assert (Hlen : forall a b, String.length (a ++ b)
                             = (String.length a + String.length b)%nat).
  { intros a b. induction a as [|x a IH]; cbn; [reflexivity | now rewrite IH]. }
  unfold decorate.
  destruct ((p =? "entrust") || (p =? "")).
  - exists "". intros m. split; reflexivity.
  - exists (interpolate (get commitPrefixes p) ++ ": "). intros m.
    rewrite <- string_append_assoc. split; [reflexivity | apply Hlen].
Qed.

(** X2.  The prefix prompt and the table agree: the option values are the
    keys of [commitPrefixes] in order, and for every option other than
    "None" and "Entrust" the label shown to the user is the label the
    table holds, hence the one that is prepended. *)
Theorem prefix_options_match_table :
  map value prefix_options = map fst commitPrefixes
  /\ forall o, In o prefix_options ->
       value o <> "" -> value o <> "entrust" ->
       get commitPrefixes (value o) = Some (label o)
       /\ forall m, decorate (value o) m = label o ++ ": " ++ m.
Proof.
  split; [reflexivity|].
  intros o Hin Hnone Hentrust.
  cbn [prefix_options In] in Hin.
  repeat (destruct Hin as [<- | Hin]; [try (split; [reflexivity | intros m; reflexivity]) | ]);
    try contradiction; cbn in Hnone, Hentrust; congruence.
Qed.

(** X3.  The auxiliary instruction is empty exactly when the note is empty
    and the prefix is not [entrust]; a non-empty note always comes first,
    introduced by "Background information provided from user: ". *)
Theorem instruction_empty_iff (note p : string) :
  (instruction note p = "" <-> note = "" /\ p <> "entrust")
  /\ (note <> "" ->
      exists rest,
        instruction note p
        = "Background information provided from user: " ++ note ++ rest).
Proof.
  unfold instruction, bgInfoText.
  destruct (String.eqb_spec p "entrust") as [-> | Hp];
    destruct (String.eqb_spec note "") as [-> | Hnote].
  - split; [split; [discriminate | intros [_ H]; congruence] | congruence].
  - split.
    + split; [discriminate | intros [H _]; congruence].
    + intros _. exists (nl ++ entrust_directive).
      now rewrite string_append_assoc.
  - split; [split; [auto | reflexivity] | congruence].
  - split.
    + split; [discriminate | intros [H _]; congruence].
    + intros _. exists "".
      assert (Hnil : forall a, a ++ "" = a).
      { intros a. induction a as [|x a IH]; cbn; [reflexivity | now rewrite IH]. }
      now rewrite Hnil.
Qed.

(** ** The configuration request *)

Section Environment.

Variable E : Env.
Variable generate : option Number.
Variable commitType : option string.



End Environment.

(** ** Every run, continued *)

Section MoreProperties.

Variable E : Env.
Variable generate : option Number.
Variable excludeFiles : list string.
Variable stageAll : bool.
Variable commitType : option string.
Variable rawArgv : list string.

Local Abbreviation run :=
  (aicommits E generate excludeFiles stageAll commitType rawArgv).

(** X6.  When the repository check fails, the run is the greeting, the
    check, and the error handler, nothing else: no [git add], no diff, no
    prompt. *)
Theorem not_a_git_repo_stops_at_once (e : Error) :
  In (AssertGitRepo (Rejected e)) (trace run) ->
  trace run =
    [Intro (bgCyan E (black E " aicommits "));
     AssertGitRepo (Rejected e);
     Outro (failure_line E e);
     HandleCliError e;
     ProcessExit 1]
  /\ settled run = Rejected e.
Proof.
  run_cases.
  all: intros Hin; in_cases Hin; same_event Hin; try congruence.
  all: split; reflexivity.
Qed.

(** X7.  The only process a run starts besides the commit and the child
    is [git add --update], and only with the stage-all flag.  With the flag
    it is started right after the repository check; when it fails the run
    is rejected with its error and the detector is never called. *)
Theorem stage_all_runs_git_add_first :
  (forall file args stdio r,
     In (Execa file args stdio r) (trace run) ->
     is_commit (Execa file args stdio r) = false ->
     is_respawn (Execa file args stdio r) = false ->
     stageAll = true /\ file = "git" /\ args = ["add"; "--update"]
     /\ stdio = StdioDefault)
  /\ (stageAll = true ->
      In (AssertGitRepo (Resolved tt)) (trace run) ->
      exists r,
        has_segment (trace run)
          [AssertGitRepo (Resolved tt);
           Execa "git" ["add"; "--update"] StdioDefault r]
        /\ forall e, r = Rejected e ->
             settled run = Rejected e
             /\ forall ex r', ~ In (GetStagedDiff ex r') (trace run)).
Proof.
  run_cases.
  all: split.
  all: try solve [intros file args stdio r Hin Hc Hr; in_cases Hin;
                  same_event Hin; cbn in Hc, Hr; try congruence;
                  repeat split; reflexivity].
  all: try solve [intros H; discriminate H].
  all: intros _ Hrepo; in_cases Hrepo; try same_event Hrepo; try congruence.
  all: eexists; split; [show_segment|].
  all: intros err Herr; try discriminate Herr.
  all: injection Herr as <-; split; [reflexivity|].
  all: intros ex r' Hin; in_cases Hin.
Qed.

(** X8.  The detector is called right after the first spinner starts.  The
    spinner is stopped right after the detector resolves, with the list
    of files or, when nothing is staged, with its own text; when the
    detector is rejected the spinner is never stopped and the error handler
    follows at once. *)
Theorem detecting_spinner_stops_only_on_an_answer (r : Settled (option Staged)) :
  In (GetStagedDiff excludeFiles r) (trace run) ->
  has_segment (trace run)
    [SpinnerStart spinner_detectingFiles "Detecting staged files";
     GetStagedDiff excludeFiles r]
  /\ match r with
     | Resolved (Some staged) =>
         has_segment (trace run)
           [GetStagedDiff excludeFiles r;
            SpinnerStop spinner_detectingFiles (detected_text E staged)]
     | Resolved None =>
         has_segment (trace run)
           [GetStagedDiff excludeFiles r;
            SpinnerStop spinner_detectingFiles "Detecting staged files"]
     | Rejected e =>
         (forall text, ~ In (SpinnerStop spinner_detectingFiles text) (trace run))
         /\ ends_with (trace run)
              [SpinnerStart spinner_detectingFiles "Detecting staged files";
               GetStagedDiff excludeFiles r;
               Outro (failure_line E e);
               HandleCliError e;
               ProcessExit 1]
     end.
Proof.
  run_cases.
  all: intros Hin; in_cases Hin; same_event Hin; try congruence.
  all: split; [show_segment|].
  all: try solve [show_segment].
  all: split; [intros text H; in_cases H | show_ends_with].
Qed.



(** X11.  At the confirmation prompt every answer other than ['cancel'] and
    ['regenerate'] commits (['yes'] is not tested for), the commit is the
    very next call, and the message committed is the one the prompt
    displayed. *)
Theorem confirmed_message_is_the_one_shown (msg v : string) :
  In (Select msg confirm_options (Some "yes") (Value v)) (trace run) ->
  v <> "cancel" -> v <> "regenerate" ->
  exists m r,
    msg = confirm_message m
    /\ has_segment (trace run)
         [Select msg confirm_options (Some "yes") (Value v);
          Execa "git" ("commit" :: "-m" :: m :: rawArgv) StdioDefault r]
    /\ respawns (trace run) = [].
Proof.
  run_cases.
  all: intros Hin Hcancel Hregen; in_cases Hin; same_event Hin; try congruence.
  all: do 2 eexists; split; [reflexivity|].
  all: split; [show_segment | reflexivity].
Qed.

(** X12.  A run whose promise is fulfilled ended in one of three ways: a
    cancellation followed by the farewell, the child process succeeding,
    or the commit succeeding followed by the success line. *)
Theorem fulfilled_runs_end_in_three_ways :
  settled run = Resolved tt ->
  (exists ev, Cancellation ev
              /\ ends_with (trace run) [ev; Outro "Commit cancelled"])
  \/ ends_with (trace run) [Execa "aim" rawArgv StdioInherit (Resolved tt)]
  \/ exists m,
       ends_with (trace run)
         [Execa "git" ("commit" :: "-m" :: m :: rawArgv) StdioDefault
            (Resolved tt);
          Outro (success_line E)].
Proof.
  run_cases.
  all: intros Hs; try discriminate Hs.
  all: try solve [right; left; show_ends_with].
  all: try solve [right; right; eexists; show_ends_with].
  all: left.
  all: match goal with
       | |- context [Text ?m ?p Cancel] => exists (Text m p Cancel)
       | |- context [Select ?m ?o ?i Cancel] => exists (Select m o i Cancel)
       | |- context [Select ?m confirm_options (Some "yes") (Value "cancel")] =>
           exists (Select m confirm_options (Some "yes") (Value "cancel"))
       end.
  all: split; [constructor | show_ends_with].
Qed.

(** X13.  Every run opens with the greeting and the repository check, and
    greets once.  It prints at most one closing line, and none exactly
    when the child process took over and succeeded. *)
Theorem one_closing_line :
  (exists r rest,
     trace run = Intro (bgCyan E (black E " aicommits ")) :: AssertGitRepo r :: rest
     /\ forall text, ~ In (Intro text) rest)
  /\ (length (filter is_outro (trace run)) <= 1)%nat
  /\ (filter is_outro (trace run) = [] <->
      In (Execa "aim" rawArgv StdioInherit (Resolved tt)) (trace run)).
Proof.
  run_cases.
  all: cbn [filter is_outro length].
  all: split; [do 2 eexists; split; [reflexivity | intros text H; in_cases H]|].
  all: split; [lia|].
  all: split; intros H; try discriminate H; try solve [find_in]; in_cases H.
  all: reflexivity.
Qed.

(** X14.  A failing step is the last step: after it come at most the stop
    of a spinner and then the error handler with that step's error. *)
Theorem nothing_follows_a_failure (ev : Event) (e : Error) :
  In ev (trace run) -> failure ev = Some e ->
  ends_with (trace run)
    [ev; Outro (failure_line E e); HandleCliError e; ProcessExit 1]
  \/ exists sp text,
       ends_with (trace run)
         [ev; SpinnerStop sp text;
          Outro (failure_line E e); HandleCliError e; ProcessExit 1].
Proof.
  run_cases.
  all: intros Hin Hfail; in_cases Hin; cbn in Hfail; try discriminate Hfail.
  all: injection Hfail as <-.
  all: first [ left; solve [show_ends_with]
             | right; do 2 eexists; solve [show_ends_with] ].
Qed.

End MoreProperties.

(** ** More scenarios, run *)

(** Outside a repository. *)
Lemma not_a_git_repo_witness :
  In (AssertGitRepo (Rejected (KnownError "The current directory must be a Git repository!")))
     (trace (run_scenario scenario_not_a_repo))
  /\ trace (run_scenario scenario_not_a_repo) =
       [Intro " aicommits ";
        AssertGitRepo (Rejected (KnownError "The current directory must be a Git repository!"));
        Outro "✖ The current directory must be a Git repository!";
        HandleCliError (KnownError "The current directory must be a Git repository!");
        ProcessExit 1].
Proof.
  assert (Hin : In (AssertGitRepo (Rejected (KnownError "The current directory must be a Git repository!")))
                   (trace (run_scenario scenario_not_a_repo)))
    by by_computation.
  destruct (not_a_git_repo_stops_at_once scenario_not_a_repo None [] false None
              ["--no-verify"] _ Hin) as (Htrace & _).
  split; [exact Hin | exact Htrace].
Defined.

(** The detector fails: the first spinner is left running. *)
Lemma detecting_spinner_witness :
  In (GetStagedDiff [] (Rejected (mkError false "Command failed: git diff --cached")))
     (trace (run_scenario scenario_diff_fails))
  /\ forall text,
       ~ In (SpinnerStop spinner_detectingFiles text)
            (trace (run_scenario scenario_diff_fails)).
Proof.
  assert (Hin : In (GetStagedDiff [] (Rejected (mkError false "Command failed: git diff --cached")))
                   (trace (run_scenario scenario_diff_fails)))
    by by_computation.
  destruct (detecting_spinner_stops_only_on_an_answer scenario_diff_fails None []
              false None ["--no-verify"] _ Hin) as (_ & Hnever & _).
  split; [exact Hin | exact Hnever].
Defined.


(** Scenario A: the message shown is the message committed. *)
Lemma confirmed_message_witness :
  In (Select (confirm_message "🐛 fix: add login guard") confirm_options
        (Some "yes") (Value "yes"))
     (trace (run_scenario scenario_A))
  /\ exists m r,
       confirm_message "🐛 fix: add login guard" = confirm_message m
       /\ has_segment (trace (run_scenario scenario_A))
            [Select (confirm_message "🐛 fix: add login guard") confirm_options
               (Some "yes") (Value "yes");
             Execa "git" ("commit" :: "-m" :: m :: ["--no-verify"])
               StdioDefault r].
Proof.
  assert (Hin : In (Select (confirm_message "🐛 fix: add login guard")
                      confirm_options (Some "yes") (Value "yes"))
                   (trace (run_scenario scenario_A)))
    by by_computation.
  destruct (confirmed_message_is_the_one_shown scenario_A None [] false None
              ["--no-verify"] _ _ Hin)
    as (m & r & Hmsg & Hseg & _); [discriminate | discriminate |].
  split; [exact Hin|].
  exists m, r. split; [exact Hmsg | exact Hseg].
Defined.

(** Scenario A is fulfilled. *)
Lemma fulfilled_runs_witness :
  settled (run_scenario scenario_A) = Resolved tt
  /\ ((exists ev, Cancellation ev
                  /\ ends_with (trace (run_scenario scenario_A))
                       [ev; Outro "Commit cancelled"])
      \/ ends_with (trace (run_scenario scenario_A))
           [Execa "aim" ["--no-verify"] StdioInherit (Resolved tt)]
      \/ exists m,
           ends_with (trace (run_scenario scenario_A))
             [Execa "git" ("commit" :: "-m" :: m :: ["--no-verify"])
                StdioDefault (Resolved tt);
              Outro (success_line scenario_A)]).
Proof.
  assert (Hs : settled (run_scenario scenario_A) = Resolved tt) by reflexivity.
  split; [exact Hs|].
  exact (fulfilled_runs_end_in_three_ways scenario_A None [] false None
           ["--no-verify"] Hs).
Defined.

(** Scenario D: after the timeout, the spinner stop and the handler. *)
Lemma nothing_follows_a_failure_witness :
  In (GenerateCommitMessage
        (generate_args sample_config sample_staged "" "fix")
        (Rejected (mkError false "Time out error: request took over 10000ms.")))
     (trace (run_scenario scenario_D))
  /\ (ends_with (trace (run_scenario scenario_D))
        [GenerateCommitMessage
           (generate_args sample_config sample_staged "" "fix")
           (Rejected (mkError false "Time out error: request took over 10000ms."));
         Outro "✖ Time out error: request took over 10000ms.";
         HandleCliError (mkError false "Time out error: request took over 10000ms.");
         ProcessExit 1]
      \/ exists sp text,
           ends_with (trace (run_scenario scenario_D))
             [GenerateCommitMessage
                (generate_args sample_config sample_staged "" "fix")
                (Rejected (mkError false "Time out error: request took over 10000ms."));
              SpinnerStop sp text;
              Outro "✖ Time out error: request took over 10000ms.";
              HandleCliError (mkError false "Time out error: request took over 10000ms.");
              ProcessExit 1]).
Proof.
  assert (Hin : In (GenerateCommitMessage
                      (generate_args sample_config sample_staged "" "fix")
                      (Rejected (mkError false "Time out error: request took over 10000ms.")))
                   (trace (run_scenario scenario_D)))
    by by_computation.
  split; [exact Hin|].
  exact (nothing_follows_a_failure scenario_D None [] false None
           ["--no-verify"] _ _ Hin eq_refl).
Defined.

(** Scenario A with the stage-all flag. *)
Example stage_all_in_scenario_A :
  firstn 4 (trace (aicommits scenario_A None [] true None [])) =
    [Intro " aicommits ";
     AssertGitRepo (Resolved tt);
     Execa "git" ["add"; "--update"] StdioDefault (Resolved tt);
     SpinnerStart spinner_detectingFiles "Detecting staged files"]
  /\ operations (trace (aicommits scenario_A None [] true None [])) =
       [OpAssertGitRepo; OpOtherProcess; OpGetStagedDiff; OpGetConfig;
        OpGenerate; OpCommit].
Proof. split; reflexivity. Qed.
